(** * A shallow embedding of [app.py] (loyalbooks scraper and downloader)

    Strings are ASCII strings ([String.string]); Python exceptions are
    modelled by the result type [pyres]; side effects that a claim talks
    about (prints, HTTP requests, directory creation, download submissions)
    are recorded as a trace of [effect]s. *)

From Stdlib Require Import Bool Arith ZArith List String Ascii Lia.
Import ListNotations.
Open Scope string_scope.
Set Warnings "-register-all".


(** ** Python exceptions and results *)

Inductive exn : Type :=
  | ValueError
  | IndexError
  | KeyError
  | AttributeError
  | ParseError
  | RequestException
  | OSError.

Inductive pyres (A : Type) : Type :=
  | Ret (a : A)
  | Raise (e : exn).
Arguments Ret {A} a.
Arguments Raise {A} e.

(** ** Python string primitives (ASCII fragment) *)

Module Py.

(** [str.isspace] on ASCII: \t \n \x0b \x0c \r, \x1c .. \x1f and space. *)
Definition is_space (c : ascii) : bool :=
  let n := nat_of_ascii c in
  (((9 <=? n) && (n <=? 13)) || ((28 <=? n) && (n <=? 32)))%nat.

Fixpoint lstrip (s : string) : string :=
  match s with
  | EmptyString => EmptyString
  | String c s' => if is_space c then lstrip s' else s
  end.

Fixpoint rstrip (s : string) : string :=
  match s with
  | EmptyString => EmptyString
  | String c s' =>
      let r := rstrip s' in
      match r with
      | EmptyString => if is_space c then EmptyString else String c EmptyString
      | _ => String c r
      end
  end.

(** [s.strip()] *)
Definition strip (s : string) : string := rstrip (lstrip s).

(** [s.lower()] on ASCII. *)
Definition lower_char (c : ascii) : ascii :=
  let n := nat_of_ascii c in
  if ((65 <=? n) && (n <=? 90))%nat then ascii_of_nat (n + 32) else c.

Fixpoint lower (s : string) : string :=
  match s with
  | EmptyString => EmptyString
  | String c s' => String (lower_char c) (lower s')
  end.

(** [sep] is a prefix of [s]. *)
Fixpoint is_prefix (sep s : string) : bool :=
  match sep, s with
  | EmptyString, _ => true
  | String a sep', String b s' => Ascii.eqb a b && is_prefix sep' s'
  | String _ _, EmptyString => false
  end.

(** [sub in s] *)
Fixpoint contains (sub s : string) : bool :=
  is_prefix sub s ||
  match s with
  | EmptyString => false
  | String _ s' => contains sub s'
  end.

(** [s.split(sep)] for a non-empty [sep]: scanning left to right, a match
    of [sep] closes the current piece and the [length sep - 1] following
    characters (the rest of the separator) are skipped. *)
Fixpoint split_go (sep s : string) (skip : nat) (cur : string) : list string :=
  match s with
  | EmptyString => [cur]
  | String c s' =>
      match skip with
      | S k => split_go sep s' k cur
      | O =>
          if is_prefix sep s
          then cur :: split_go sep s' (length sep - 1)%nat EmptyString
          else split_go sep s' O (cur ++ String c EmptyString)
      end
  end.

Definition split (sep s : string) : list string := split_go sep s O EmptyString.

(** [s.replace(old, new)] for a non-empty [old]. *)
Fixpoint replace_go (old new s : string) (skip : nat) : string :=
  match s with
  | EmptyString => EmptyString
  | String c s' =>
      match skip with
      | S k => replace_go old new s' k
      | O =>
          if is_prefix old s
          then new ++ replace_go old new s' (length old - 1)%nat
          else String c (replace_go old new s' O)
      end
  end.

Definition replace (old new s : string) : string := replace_go old new s O.

(** Python list indexing [l[i]], raising [IndexError] out of range. *)
Definition index {A} (l : list A) (i : nat) : pyres A :=
  match nth_error l i with
  | Some a => Ret a
  | None => Raise IndexError
  end.

Definition is_digit (c : ascii) : bool :=
  let n := nat_of_ascii c in ((48 <=? n) && (n <=? 57))%nat.

Definition digit_val (c : ascii) : Z := Z.of_nat (nat_of_ascii c - 48)%nat.

(** Digits of a decimal literal, single underscores allowed between digits. *)
Fixpoint int_digits (s : string) (acc : Z) (last_digit : bool) : option Z :=
  match s with
  | EmptyString => if last_digit then Some acc else None
  | String c s' =>
      if is_digit c then int_digits s' (acc * 10 + digit_val c) true
      else if Ascii.eqb c "_"%char && last_digit then int_digits s' acc false
      else None
  end.

(** [int(s)] for a [str] argument: surrounding whitespace, an optional sign,
    then decimal digits; anything else raises [ValueError]. *)
Definition int (s : string) : pyres Z :=
  let t := strip s in
  let r := match t with
           | String c body =>
               if Ascii.eqb c "-"%char then option_map Z.opp (int_digits body 0 false)
               else if Ascii.eqb c "+"%char then int_digits body 0 false
               else int_digits t 0 false
           | EmptyString => None
           end in
  match r with
  | Some z => Ret z
  | None => Raise ValueError
  end.

End Py.

(** ** Pagination ([get_pagination_info], lines 69-89) *)

(** The part of the parsed page the function reads: the [div.result-pages]
    node, given by the list of its text nodes in document order, or [None]
    when [soup.find('div', class_='result-pages')] finds nothing. *)
Definition markup := option (list string).

(** [Tag.get_text(strip=True)]: every text node stripped, empty ones
    dropped, the rest concatenated. *)
Definition get_text_strip (pieces : list string) : string :=
  fold_right append EmptyString
    (filter (fun p => negb (String.eqb p EmptyString)) (map Py.strip pieces)).

(** The dict [pagination_info]; a key that the code never sets is [None],
    a key set to Python's [None] is [Some None]. *)
Record pagination_info := {
  current_page : Z;
  total_pages : Z;
  has_previous : option (option Z);
  has_next : option (option Z)
}.

(** [pagination_info.get(key)] as the caller reads it. *)
Definition get_opt (v : option (option Z)) : option Z :=
  match v with Some (Some z) => Some z | _ => None end.

(** The [try] block of lines 76-82: the two dict updates happen in order, so
    a failure in the second leaves the first in place. *)
Definition parse_marker (text : string) (cur tot : Z) : Z * Z :=
  if Py.contains "Page" text && Py.contains "of" text then
    match Py.index (Py.split "Page " text) 1 with
    | Raise _ => (cur, tot)
    | Ret after =>
        let parts := Py.split " of " after in
        match Py.index parts 0 with
        | Raise _ => (cur, tot)
        | Ret p0 =>
            match Py.int p0 with
            | Raise _ => (cur, tot)
            | Ret c =>
                (* pagination_info['current_page'] = int(parts[0]) *)
                match Py.index parts 1 with
                | Raise _ => (c, tot)
                | Ret p1 =>
                    match Py.int (Py.replace ">" "" p1) with
                    | Raise _ => (c, tot)
                    | Ret t => (c, t)
                    end
                end
            end
        end
    end
  else (cur, tot).

(** [get_pagination_info(soup)] with the global [PAGE] equal to [page]. *)
Definition get_pagination_info (page : Z) (m : markup) : pagination_info :=
  match m with
  | None =>
      {| current_page := page; total_pages := page;
         has_previous := None; has_next := None |}
  | Some pieces =>
      let '(c, t) := parse_marker (get_text_strip pieces) page page in
      {| current_page := c; total_pages := t;
         has_previous := Some (if 1 <? c then Some (c - 1) else None)%Z;
         has_next := Some (if c <? t then Some (c + 1) else None)%Z |}
  end.

Example pagination_ex1 :
  get_pagination_info 1 (Some ["Page 2 of 7"]) =
  {| current_page := 2; total_pages := 7;
     has_previous := Some (Some 1%Z); has_next := Some (Some 3%Z) |}.
Proof. vm_compute. reflexivity. Qed.

Example pagination_ex2 :
  get_pagination_info 1 (Some ["Page 2 of 7"; ">"]) =
  get_pagination_info 1 (Some ["Page 2 of 7"]).
Proof. vm_compute. reflexivity. Qed.

Example pagination_ex3 :
  current_page (get_pagination_info 4 (Some ["nothing"])) = 4%Z.
Proof. vm_compute. reflexivity. Qed.

(** ** Decimal numerals in marker text *)

Fixpoint all_digits (s : string) : bool :=
  match s with
  | EmptyString => true
  | String c s' => Py.is_digit c && all_digits s'
  end.

Fixpoint dec_value_acc (s : string) (acc : Z) : Z :=
  match s with
  | EmptyString => acc
  | String c s' => dec_value_acc s' (acc * 10 + Py.digit_val c)
  end.

(** The number written by a non-empty string of decimal digits. *)
Definition dec_value (s : string) : Z := dec_value_acc s 0.

(** [k] copies of the character ['>']. *)
Fixpoint gts (k : nat) : string :=
  match k with
  | O => EmptyString
  | S k' => String ">" (gts k')
  end.

(** ** Lemmas on the string primitives *)

Module StrFacts.

Lemma append_assoc (a b c : string) : (a ++ b) ++ c = a ++ (b ++ c).
Proof. induction a as [|x a IH]; simpl; [reflexivity | now rewrite IH]. Qed.

Lemma append_nil_r (a : string) : a ++ EmptyString = a.
Proof. induction a as [|x a IH]; simpl; [reflexivity | now rewrite IH]. Qed.

(** [a] does not occur as a character of [s]. *)
Definition no_char (a : ascii) (s : string) : Prop :=
  forall c, In c (list_ascii_of_string s) -> c <> a.

Lemma no_char_nil a : no_char a EmptyString.
Proof. intros c []. Qed.

Lemma no_char_cons a c s : no_char a (String c s) <-> c <> a /\ no_char a s.
Proof.
  unfold no_char; simpl; split.
  - intros H; split; [apply H; now left | intros d Hd; apply H; now right].
  - intros [H1 H2] d [<-|Hd]; [exact H1 | now apply H2].
Qed.

Lemma no_char_app a s t : no_char a (s ++ t) <-> no_char a s /\ no_char a t.
Proof.
  induction s as [|c s IH]; simpl.
  - split; [intros H; split; [apply no_char_nil | exact H] | now intros [_ H]].
  - rewrite !no_char_cons, IH. tauto.
Qed.

Lemma is_prefix_app sep r : Py.is_prefix sep (sep ++ r) = true.
Proof.
  induction sep as [|a sep IH]; simpl; [reflexivity|].
  now rewrite Ascii.eqb_refl, IH.
Qed.

Lemma is_prefix_head_false a sep c s :
  c <> a -> Py.is_prefix (String a sep) (String c s) = false.
Proof.
  intros H; simpl. destruct (Ascii.eqb_spec a c); [congruence | reflexivity].
Qed.

Section Split.
Variables (a : ascii) (sep' : string).
Let sep := String a sep'.

Lemma split_go_free s cur :
  no_char a s -> Py.split_go sep s O cur = [cur ++ s].
Proof.
  revert cur; induction s as [|c s IH]; intros cur H; simpl.
  - now rewrite append_nil_r.
  - apply no_char_cons in H as [Hc Hs].
    destruct (Ascii.eqb_spec a c); [congruence|]. simpl.
    rewrite IH by exact Hs. now rewrite append_assoc.
Qed.

Lemma split_go_free_app s t cur :
  no_char a s -> Py.split_go sep (s ++ t) O cur = Py.split_go sep t O (cur ++ s).
Proof.
  revert cur; induction s as [|c s IH]; intros cur H; simpl.
  - now rewrite append_nil_r.
  - apply no_char_cons in H as [Hc Hs].
    destruct (Ascii.eqb_spec a c); [congruence|]. simpl.
    rewrite IH by exact Hs. now rewrite append_assoc.
Qed.

Lemma split_go_skip x r cur :
  Py.split_go sep (x ++ r) (length x) cur = Py.split_go sep r O cur.
Proof. revert cur; induction x as [|c x IH]; intros cur; simpl; auto. Qed.

Lemma split_go_sep r cur :
  Py.split_go sep (sep ++ r) O cur = cur :: Py.split_go sep r O EmptyString.
Proof.
  unfold sep at 1. simpl. fold sep.
  rewrite Ascii.eqb_refl, is_prefix_app. simpl.
  rewrite Nat.sub_0_r. now rewrite split_go_skip.
Qed.

End Split.

Lemma replace_go_free a old' new s t :
  no_char a s ->
  Py.replace_go (String a old') new (s ++ t) O = s ++ Py.replace_go (String a old') new t O.
Proof.
  induction s as [|c s IH]; intros H; simpl; [reflexivity|].
  apply no_char_cons in H as [Hc Hs].
  destruct (Ascii.eqb_spec a c); [congruence|]. simpl.
  now rewrite IH.
Qed.

Lemma replace_gts k : Py.replace ">" "" (gts k) = EmptyString.
Proof.
  unfold Py.replace; induction k as [|k IH]; simpl; [reflexivity|]. exact IH.
Qed.

Lemma contains_prefix sub s : Py.is_prefix sub s = true -> Py.contains sub s = true.
Proof. destruct s; simpl; intros ->; reflexivity. Qed.

Lemma contains_app sub x y : Py.contains sub y = true -> Py.contains sub (x ++ y) = true.
Proof.
  induction x as [|c x IH]; simpl; intros H; [exact H|].
  rewrite (IH H). apply orb_true_r.
Qed.

Lemma digits_no_char a s :
  Py.is_digit a = false -> all_digits s = true -> no_char a s.
Proof.
  intros Ha; induction s as [|c s IH]; simpl; intros H.
  - apply no_char_nil.
  - apply andb_prop in H as [Hc Hs]. apply no_char_cons; split; [|now apply IH].
    intros ->; congruence.
Qed.

Lemma gts_no_char a k : a <> ">"%char -> no_char a (gts k).
Proof.
  intros Ha; induction k as [|k IH]; simpl; [apply no_char_nil|].
  apply no_char_cons; split; [congruence | exact IH].
Qed.

Lemma digits_not_space c : Py.is_digit c = true -> Py.is_space c = false.
Proof.
  unfold Py.is_digit, Py.is_space; intros H.
  apply andb_prop in H as [H1 H2]. apply Nat.leb_le in H1, H2.
  apply orb_false_intro; apply andb_false_iff;
    right; apply Nat.leb_gt; lia.
Qed.

Lemma rstrip_digits s : all_digits s = true -> Py.rstrip s = s.
Proof.
  induction s as [|c s IH]; simpl; intros H; [reflexivity|].
  apply andb_prop in H as [Hc Hs]. rewrite (IH Hs).
  destruct s; [now rewrite (digits_not_space c Hc) | reflexivity].
Qed.

Lemma strip_digits s : all_digits s = true -> Py.strip s = s.
Proof.
  intros H; unfold Py.strip. destruct s as [|c s]; [reflexivity|].
  simpl in H |- *. apply andb_prop in H as [Hc Hs].
  rewrite (digits_not_space c Hc). apply rstrip_digits. simpl; now rewrite Hc.
Qed.

Lemma int_digits_all s acc :
  all_digits s = true -> Py.int_digits s acc true = Some (dec_value_acc s acc).
Proof.
  revert acc; induction s as [|c s IH]; intros acc H; simpl; [reflexivity|].
  apply andb_prop in H as [Hc Hs]. rewrite Hc. now apply IH.
Qed.

Lemma int_dec s : s <> EmptyString -> all_digits s = true -> Py.int s = Ret (dec_value s).
Proof.
  intros Hne H. unfold Py.int. rewrite (strip_digits s H).
  destruct s as [|c s]; [congruence|].
  simpl in H. apply andb_prop in H as [Hc Hs].
  assert (Hm : Ascii.eqb c "-"%char = false).
  { destruct (Ascii.eqb_spec c "-"%char); [subst; discriminate | reflexivity]. }
  assert (Hp : Ascii.eqb c "+"%char = false).
  { destruct (Ascii.eqb_spec c "+"%char); [subst; discriminate | reflexivity]. }
  rewrite Hm, Hp. simpl. rewrite Hc, (int_digits_all s _ Hs). reflexivity.
Qed.

End StrFacts.

Lemma no_char_of_forallb a s :
  forallb (fun c => negb (Ascii.eqb c a)) (list_ascii_of_string s) = true ->
  StrFacts.no_char a s.
Proof.
  intros H c Hc ->. rewrite forallb_forall in H. specialize (H a Hc).
  rewrite Ascii.eqb_refl in H. discriminate.
Qed.

(** ** The marker parse on well-formed marker text *)

Lemma parse_marker_wellformed dx dy k cur tot :
  dx <> EmptyString -> all_digits dx = true ->
  dy <> EmptyString -> all_digits dy = true ->
  parse_marker ("Page " ++ dx ++ " of " ++ dy ++ gts k) cur tot
  = (dec_value dx, dec_value dy).
Proof.
  intros Hx Hxd Hy Hyd. unfold parse_marker.
  set (rest := dx ++ " of " ++ dy ++ gts k).
  assert (Hnc : forall a, Py.is_digit a = false -> a <> ">"%char ->
                StrFacts.no_char a " of " -> StrFacts.no_char a rest).
  { intros a Ha Hg Hof. unfold rest. rewrite !StrFacts.no_char_app.
    repeat split; auto using StrFacts.digits_no_char, StrFacts.gts_no_char. }
  (* both substrings are present *)
  assert (HP : Py.contains "Page" ("Page " ++ rest) = true)
    by (apply StrFacts.contains_prefix; reflexivity).
  assert (HO : Py.contains "of" ("Page " ++ rest) = true).
  { apply (StrFacts.contains_app "of" "Page "), (StrFacts.contains_app "of" dx).
    reflexivity. }
  rewrite HP, HO. simpl andb. cbv iota beta.
  (* text.split('Page ')[1] *)
  unfold Py.split.
  rewrite (StrFacts.split_go_sep "P" "age " rest EmptyString).
  rewrite (StrFacts.split_go_free "P" "age " rest EmptyString)
    by (apply Hnc; [reflexivity | discriminate | now apply no_char_of_forallb]).
  cbn [Py.index nth_error append].
  (* .split(' of ') *)
  unfold rest.
  rewrite (StrFacts.split_go_free_app " " "of " dx (" of " ++ dy ++ gts k) EmptyString)
    by (apply StrFacts.digits_no_char; [reflexivity | exact Hxd]).
  rewrite (StrFacts.split_go_sep " " "of " (dy ++ gts k)).
  rewrite (StrFacts.split_go_free " " "of " (dy ++ gts k) EmptyString).
  2:{ rewrite StrFacts.no_char_app; split;
      [apply StrFacts.digits_no_char; [reflexivity | exact Hyd]
      | apply StrFacts.gts_no_char; discriminate]. }
  cbn [Py.index nth_error append].
  rewrite (StrFacts.int_dec dx Hx Hxd).
  unfold Py.replace.
  rewrite (StrFacts.replace_go_free ">" "" "" dy (gts k))
    by (apply StrFacts.digits_no_char; [reflexivity | exact Hyd]).
  fold (Py.replace ">" "" (gts k)). rewrite StrFacts.replace_gts, StrFacts.append_nil_r.
  rewrite (StrFacts.int_dec dy Hy Hyd). reflexivity.
Qed.

(** ** Claims on the pagination parser *)

(** C1 (as amended): when the text of the pagination marker reads
    [Page X of Y] followed by any number of ['>'] characters, with [X] and
    [Y] written in decimal digits, the parsed [current_page] is [X] and
    [total_pages] is [Y]. *)
Theorem get_pagination_info_page_x_of_y (page : Z) (pieces : list string)
  (dx dy : string) (k : nat)
  (Hx : dx <> EmptyString) (Hxd : all_digits dx = true)
  (Hy : dy <> EmptyString) (Hyd : all_digits dy = true)
  (Htext : get_text_strip pieces = "Page " ++ dx ++ " of " ++ dy ++ gts k) :
  current_page (get_pagination_info page (Some pieces)) = dec_value dx /\
  total_pages (get_pagination_info page (Some pieces)) = dec_value dy.
Proof.
  unfold get_pagination_info. rewrite Htext.
  rewrite (parse_marker_wellformed dx dy k page page Hx Hxd Hy Hyd).
  split; reflexivity.
Qed.

Lemma get_pagination_info_page_x_of_y_witness :
  get_text_strip ["Page 12 of 40"; ">"] = "Page " ++ "12" ++ " of " ++ "40" ++ gts 1 /\
  current_page (get_pagination_info 1 (Some ["Page 12 of 40"; ">"])) = dec_value "12" /\
  total_pages (get_pagination_info 1 (Some ["Page 12 of 40"; ">"])) = dec_value "40".
Proof.
  split; [reflexivity|].
  apply (get_pagination_info_page_x_of_y 1 ["Page 12 of 40"; ">"] "12" "40" 1);
    try discriminate; reflexivity.
Defined.

(** C1 counterexample: the marker [Page 2 of 5.] has a trailing stray
    character that is not stripped; the total does not parse and is left at
    the requested page 1, so the parser does not return current 2, total 5. *)
Lemma get_pagination_info_stray_dot :
  ~ (current_page (get_pagination_info 1 (Some ["Page 2 of 5."])) = 2%Z /\
     total_pages (get_pagination_info 1 (Some ["Page 2 of 5."])) = 5%Z).
Proof. vm_compute. intros [_ H]. discriminate. Qed.

(** C2 (code_bug): the marker [Page 3 of x] does not match the pattern, yet
    the parser assigns [current_page] from the first number before the
    second conversion fails: with page 1 requested it returns current 3 and
    total 1 instead of current = total = 1. *)
Theorem get_pagination_info_partial_update :
  get_pagination_info 1 (Some ["Page 3 of x"]) =
  {| current_page := 3; total_pages := 1;
     has_previous := Some (Some 2%Z); has_next := Some None |}.
Proof. vm_compute. reflexivity. Qed.

(** C3 (as amended): when the page has a pagination marker node, every
    state the parser returns (full parse, fallback or partial parse)
    satisfies: previous is present iff current > 1, and next is present iff
    current < total. When the page has no marker node, the state is
    current = total = requested page with neither previous nor next. *)
Theorem get_pagination_info_links :
  (forall page pieces,
     let i := get_pagination_info page (Some pieces) in
     (get_opt (has_previous i) <> None <-> (1 < current_page i)%Z) /\
     (get_opt (has_next i) <> None <-> (current_page i < total_pages i)%Z)) /\
  (forall page,
     let i := get_pagination_info page None in
     current_page i = page /\ total_pages i = page /\
     get_opt (has_previous i) = None /\ get_opt (has_next i) = None).
Proof.
  split.
  - intros page pieces. cbv zeta. unfold get_pagination_info.
    destruct (parse_marker (get_text_strip pieces) page page) as [c t].
    simpl. split.
    + destruct (Z.ltb_spec 1 c); simpl; split; (congruence || lia).
    + destruct (Z.ltb_spec c t); simpl; split; (congruence || lia).
  - intros page. simpl. repeat split.
Qed.

(** C3 counterexample: with page 2 requested and no marker node on the
    page, current is 2 > 1 but no previous page is present. *)
Lemma get_pagination_info_no_marker_page2 :
  ~ (get_opt (has_previous (get_pagination_info 2 None)) <> None <->
     (1 < current_page (get_pagination_info 2 None))%Z).
Proof. simpl. intros [_ H]. apply H; [lia | reflexivity]. Qed.

(** ** Side effects recorded in a trace *)

Inductive effect : Type :=
  | Print (msg : string)
  | HttpGet (url : string)
  | Makedirs (path : string)
  (** [download_manager.add_uris([url], options={"dir": dir})]; [url] is
      Python's [None] when the enclosure has no [url] attribute. *)
  | AddUris (url : option string) (dir : string).

(** ** Parsed feeds ([xml.etree.ElementTree]) *)

Inductive elem : Type :=
  | Elem (tag : string) (attrib : list (string * string)) (text : option string)
         (children : list elem).

Definition elem_tag (e : elem) : string := let '(Elem t _ _ _) := e in t.
Definition elem_text (e : elem) : option string := let '(Elem _ _ x _) := e in x.
Definition elem_children (e : elem) : list elem := let '(Elem _ _ _ ch) := e in ch.

(** [e.iter()]: [e] and all its descendants in document order. *)
Fixpoint iter (e : elem) : list elem :=
  match e with
  | Elem _ _ _ ch =>
      e :: (fix go (l : list elem) : list elem :=
              match l with
              | [] => []
              | x :: r => (iter x ++ go r)%list
              end) ch
  end.

(** [e.findall('.//tag')]: descendants of [e] (not [e] itself) with that tag. *)
Definition findall_desc (tag : string) (e : elem) : list elem :=
  filter (fun x => String.eqb (elem_tag x) tag) (tl (iter e)).

(** [e.find('.//tag')] *)
Definition find_desc (tag : string) (e : elem) : option elem :=
  hd_error (findall_desc tag e).

(** [e.find('tag')]: the first direct child with that tag. *)
Definition find_child (tag : string) (e : elem) : option elem :=
  find (fun x => String.eqb (elem_tag x) tag) (elem_children e).

(** [e.get(key)] *)
Definition elem_get (key : string) (e : elem) : option string :=
  let '(Elem _ a _ _) := e in
  match find (fun kv => String.eqb (fst kv) key) a with
  | Some (_, v) => Some v
  | None => None
  end.

(** [bool(e)] for an Element: true iff it has children. *)
Definition elem_truthy (e : elem) : bool :=
  match elem_children e with [] => false | _ => true end.

(** ** [download_book] (lines 111-142) *)

Definition AUDIOBOOKS_DIR : string := "audiobooks".

(** [os.path.join(a, b)] for a relative [a] without trailing slash. *)
Definition path_join (a b : string) : string :=
  match b with
  | String c _ => if Ascii.eqb c "/"%char then b else a ++ "/" ++ b
  | EmptyString => a ++ "/"
  end.

(** Lines 113-115: [book_title]. An element without text has [.text] equal
    to [None], and [None.strip()] raises [AttributeError]. *)
Definition book_title_of (rss_feed : elem) : pyres string :=
  match find_desc "title" rss_feed with
  | None => Ret "unknown_title"
  | Some t =>
      match elem_text t with
      | None => Raise AttributeError
      | Some s => Ret (Py.strip s)
      end
  end.

(** Lines 116-117: [book_title_cleaned]. *)
Definition clean_title (book_title : string) : string :=
  let first := match Py.split " by " book_title with x :: _ => x | [] => EmptyString end in
  Py.replace "'" "" (Py.replace " " "-" (Py.lower (Py.strip first))).

(** Lines 122-123: [mp3_urls]. *)
Definition mp3_urls (rss_feed : elem) : list (option string) :=
  map (fun item => match find_child "enclosure" item with
                   | Some enc => elem_get "url" enc
                   | None => None
                   end)
      (filter (fun item => match find_child "enclosure" item with
                           | Some _ => true
                           | None => false
                           end)
              (findall_desc "item" rss_feed)).

(** What line 140 prints when [add_uris] raises. *)
Definition ADD_URIS_ERROR_MSG : string := "Error adding URL to aria2p: <Exception>".

(** The whole function: the trace of its effects and its outcome, given
    whether [os.makedirs(book_dir, exist_ok=True)] succeeds (it raises
    [OSError] for a name that is too long, a missing permission, an existing
    file of that name, ...) and whether [add_uris] succeeds for a url and a
    directory. A failing [add_uris] call is caught and printed (lines
    139-140). The trace records each call when it is made. *)
Definition download_book_in (makedirs_ok : string -> bool)
  (add_uris_ok : option string -> string -> bool) (rss_feed : elem)
  : list effect * pyres unit :=
  match book_title_of rss_feed with
  | Raise e => ([], Raise e)
  | Ret book_title =>
      let book_dir := path_join AUDIOBOOKS_DIR (clean_title book_title) in
      if makedirs_ok book_dir then
        (([Makedirs book_dir]
           ++ flat_map (fun url => AddUris url book_dir
                                   :: (if add_uris_ok url book_dir then []
                                       else [Print ADD_URIS_ERROR_MSG]))
                (mp3_urls rss_feed)
           ++ [Print "Download started!"])%list,
         Ret tt)
      else ([Makedirs book_dir], Raise OSError)
  end.

(** [download_book] in a run where the directory is created and every
    [add_uris] call succeeds. *)
Definition download_book (rss_feed : elem) : list effect * pyres unit :=
  download_book_in (fun _ => true) (fun _ _ => true) rss_feed.

(** ** Canonical title derivation, following the words of the spec *)

Module SpecTitle.

(** The portion of [s] before the first occurrence of [sep]. *)
Fixpoint before_first (sep s : string) : string :=
  match s with
  | EmptyString => EmptyString
  | String c s' => if Py.is_prefix sep s then EmptyString else String c (before_first sep s')
  end.

Fixpoint map_str (f : ascii -> ascii) (s : string) : string :=
  match s with
  | EmptyString => EmptyString
  | String c s' => String (f c) (map_str f s')
  end.

Fixpoint filter_str (p : ascii -> bool) (s : string) : string :=
  match s with
  | EmptyString => EmptyString
  | String c s' => if p c then String c (filter_str p s') else filter_str p s'
  end.

(** Split on [" by "], keep the part before, trim whitespace, lowercase,
    replace spaces with hyphens, strip apostrophes. *)
Definition canonical_title (title : string) : string :=
  filter_str (fun c => negb (Ascii.eqb c "'"%char))
    (map_str (fun c => if Ascii.eqb c " "%char then "-"%char else c)
       (Py.lower (Py.strip (before_first " by " title)))).

End SpecTitle.

Example clean_title_ex : clean_title "Pride and Prejudice by Jane Austen" = "pride-and-prejudice".
Proof. vm_compute. reflexivity. Qed.

Module TitleFacts.

Lemma split_go_first sep s cur :
  match Py.split_go sep s O cur with x :: _ => x | [] => EmptyString end
  = cur ++ SpecTitle.before_first sep s.
Proof.
  revert cur; induction s as [|c s IH]; intros cur.
  - simpl. now rewrite StrFacts.append_nil_r.
  - cbn [Py.split_go SpecTitle.before_first].
    destruct (Py.is_prefix sep (String c s)) eqn:E.
    + now rewrite StrFacts.append_nil_r.
    + rewrite IH. now rewrite StrFacts.append_assoc.
Qed.

Lemma replace_char a b s :
  Py.replace_go (String a EmptyString) (String b EmptyString) s O
  = SpecTitle.map_str (fun c => if Ascii.eqb c a then b else c) s.
Proof.
  induction s as [|c s IH]; simpl; [reflexivity|].
  destruct (Ascii.eqb_spec a c) as [->|Hne]; simpl.
  - now rewrite Ascii.eqb_refl, IH.
  - destruct (Ascii.eqb_spec c a); [congruence|]. now rewrite IH.
Qed.

Lemma delete_char a s :
  Py.replace_go (String a EmptyString) EmptyString s O
  = SpecTitle.filter_str (fun c => negb (Ascii.eqb c a)) s.
Proof.
  induction s as [|c s IH]; simpl; [reflexivity|].
  destruct (Ascii.eqb_spec a c) as [->|Hne]; simpl.
  - now rewrite Ascii.eqb_refl, IH.
  - destruct (Ascii.eqb_spec c a); [congruence|]. simpl. now rewrite IH.
Qed.

End TitleFacts.

(** Lines 116-117 applied to [book_title] are the canonical derivation
    written after the spec: split on [" by "], keep the part before, trim
    whitespace, lowercase, replace spaces by hyphens, strip apostrophes. *)
Lemma clean_title_canonical :
  (forall book_title, clean_title book_title = SpecTitle.canonical_title book_title) /\
  (forall t1 t2, t1 = t2 -> clean_title t1 = clean_title t2) /\
  clean_title "Pride and Prejudice by Jane Austen" = "pride-and-prejudice".
Proof.
  split; [|split].
  - intros t. unfold clean_title, SpecTitle.canonical_title, Py.split, Py.replace.
    rewrite TitleFacts.split_go_first. simpl append.
    now rewrite TitleFacts.replace_char, TitleFacts.delete_char.
  - intros t1 t2 ->. reflexivity.
  - vm_compute. reflexivity.
Qed.

(** ** [fetch_rss_feed] (lines 100-108) and the selection branch of [main]
    (lines 171-184) *)

(** Outcome of [requests.get(url)] followed by [raise_for_status()]: a
    [RequestException] (transport failure or non-2xx status) or the body. *)
Inductive http_response : Type :=
  | HttpFailure
  | HttpOk (body : string).

(** What the prompt loop does after handling one input. *)
Inductive control : Type :=
  | Reprompt          (* stay in the inner loop *)
  | Refetch           (* [break]: fetch and display the page [PAGE] again *).

Record book := {
  title : string;
  author : string;
  link : option string;
  cover_image : option string
}.

Section Controller.

(** The transport and the XML parser [ET.fromstring], which returns [None]
    when it raises [xml.etree.ElementTree.ParseError]. *)
Variable http_get : string -> http_response.
Variable fromstring : string -> option elem.

Definition fetch_rss_feed (url : string) : list effect * pyres (option elem) :=
  let u := url ++ "/feed" in
  match http_get u with
  | HttpFailure => ([HttpGet u; Print "Error fetching RSS feed: <RequestException>"], Ret None)
  | HttpOk body =>
      match fromstring body with
      | Some root => ([HttpGet u], Ret (Some root))
      | None => ([HttpGet u], Raise ParseError)
      end
  end.

Definition FAILED_FEED_MSG : string := "Failed to fetch the RSS feed. Please try again.".

(** Lines 174-181 for a selected book. *)
Definition select_book (selected_book : book) : list effect * pyres control :=
  match link selected_book with
  | Some l =>
      if String.eqb l EmptyString then ([], Ret Refetch) else
      let '(tr, r) := fetch_rss_feed l in
      match r with
      | Raise e => (tr, Raise e)
      | Ret (Some root) =>
          if elem_truthy root then
            let '(tr2, r2) := download_book root in
            ((tr ++ tr2)%list, match r2 with Raise e => Raise e | Ret _ => Ret Refetch end)
          else ((tr ++ [Print FAILED_FEED_MSG])%list, Ret Refetch)
      | Ret None => ((tr ++ [Print FAILED_FEED_MSG])%list, Ret Refetch)
      end
  | None => ([], Ret Refetch)
  end.

(** [choice.isdigit()] *)
Definition isdigit (s : string) : bool :=
  negb (String.eqb s EmptyString) && all_digits s.

(** One iteration of the prompt loop on a digit choice (lines 171-184);
    [choice] is the input after [.strip().lower()]. *)
Definition handle_digit_choice (books : list book) (choice : string)
  : list effect * pyres control :=
  let n := dec_value choice in
  if ((1 <=? n) && (n <=? Z.of_nat (List.length books)))%Z then
    match nth_error books (Z.to_nat (n - 1)) with
    | Some b => select_book b
    | None => ([], Raise IndexError)
    end
  else ([Print "Invalid choice. Please enter a number between 1 and <len(books)>."], Ret Reprompt).

End Controller.

(** ** Sample feeds *)

Definition enc_item (u : string) : elem :=
  Elem "item" [] None [Elem "enclosure" [("url", u); ("type", "audio/mpeg")] None []].

(** An item whose enclosure has no [url] attribute. *)
Definition enc_item_no_url : elem :=
  Elem "item" [] None [Elem "enclosure" [("type", "audio/mpeg")] None []].

Definition plain_item : elem := Elem "item" [] None [Elem "title" [] (Some "Preface") []].

Definition mk_feed (title_text : option string) (items : list elem) : elem :=
  Elem "rss" [] None [Elem "channel" [] None (Elem "title" [] title_text [] :: items)].

Definition three_chapters : list elem :=
  [enc_item "http://x/1.mp3"; plain_item; enc_item "http://x/2.mp3"; enc_item "http://x/3.mp3"].

Example download_book_three_chapters :
  download_book (mk_feed (Some " Pride and Prejudice by Jane Austen ") three_chapters) =
  ([Makedirs "audiobooks/pride-and-prejudice";
    AddUris (Some "http://x/1.mp3") "audiobooks/pride-and-prejudice";
    AddUris (Some "http://x/2.mp3") "audiobooks/pride-and-prejudice";
    AddUris (Some "http://x/3.mp3") "audiobooks/pride-and-prejudice";
    Print "Download started!"], Ret tt).
Proof. vm_compute. reflexivity. Qed.

Example download_book_no_url :
  download_book (mk_feed (Some "Emma") [enc_item_no_url]) =
  ([Makedirs "audiobooks/emma"; AddUris None "audiobooks/emma";
    Print "Download started!"], Ret tt).
Proof. vm_compute. reflexivity. Qed.

Example download_book_no_title_element :
  fst (download_book (Elem "rss" [] None [Elem "channel" [] None []])) =
  [Makedirs "audiobooks/unknown_title"; Print "Download started!"].
Proof. vm_compute. reflexivity. Qed.

(** ** Claims on the feed translator and the download step *)







(** C4 (as amended): the directory [download_book] creates for a feed
    whose first title element has text [s] is named by the canonical
    derivation applied to [s] after its surrounding whitespace is trimmed
    (line 114): split on [" by "], keep the part before, trim, lowercase,
    replace spaces by hyphens, strip apostrophes; whether or not the
    creation then succeeds. The name depends on the title text alone, and
    [Pride and Prejudice by Jane Austen] yields [pride-and-prejudice]. *)
Theorem download_book_in_dir_canonical makedirs_ok add_uris_ok
  (root t : elem) (s : string)
  (Ht : find_desc "title" root = Some t) (Hs : elem_text t = Some s) :
  hd_error (fst (download_book_in makedirs_ok add_uris_ok root))
  = Some (Makedirs (path_join AUDIOBOOKS_DIR (SpecTitle.canonical_title (Py.strip s)))) /\
  SpecTitle.canonical_title (Py.strip "Pride and Prejudice by Jane Austen")
  = "pride-and-prejudice".
Proof.
  split; [|vm_compute; reflexivity].
  unfold download_book_in, book_title_of. rewrite Ht, Hs. cbv zeta.
  rewrite (proj1 clean_title_canonical).
  destruct (makedirs_ok _); reflexivity.
Qed.

Lemma download_book_in_dir_canonical_witness :
  hd_error (fst (download_book (mk_feed (Some " Pride and Prejudice by Jane Austen ") [])))
  = Some (Makedirs "audiobooks/pride-and-prejudice").
Proof.
  destruct (download_book_in_dir_canonical (fun _ => true) (fun _ _ => true)
              (mk_feed (Some " Pride and Prejudice by Jane Austen ") [])
              (Elem "title" [] (Some " Pride and Prejudice by Jane Austen ") [])
              " Pride and Prejudice by Jane Austen " eq_refl eq_refl) as [H _].
  unfold download_book. rewrite H. vm_compute. reflexivity.
Defined.

(** C4 counterexample: the title [Emma by ] is trimmed to [Emma by]
    before it is split, so it contains no [" by "] and the directory is
    [audiobooks/emma-by], while the derivation applied to the feed title
    gives [emma]. *)
Lemma download_book_dir_trailing_by :
  ~ (hd_error (fst (download_book (mk_feed (Some "Emma by ") [])))
     = Some (Makedirs (path_join AUDIOBOOKS_DIR (SpecTitle.canonical_title "Emma by ")))).
Proof. vm_compute. intros H. discriminate H. Qed.



(** C5 counterexample: a feed whose title element is empty ([<title/>],
    so [.text] is [None]) and which has three enclosure-bearing items makes
    [download_book] raise [AttributeError] on [None.strip()] before any job
    is emitted: zero jobs instead of three. *)


(** C9 (code_bug): the user selects a book whose feed is fetched and
    parsed, a feed with an empty title element and no enclosures; the
    download attempt raises [AttributeError] before [os.makedirs], so no
    directory is created. *)
Theorem select_book_empty_title_no_makedirs :
  select_book (fun _ => HttpOk "<rss><channel><title/></channel></rss>")
    (fun _ => Some (mk_feed None []))
    {| title := "Emma"; author := "Jane Austen";
       link := Some "http://www.loyalbooks.com/book/emma"; cover_image := None |}
  = ([HttpGet "http://www.loyalbooks.com/book/emma/feed"], Raise AttributeError).
Proof. vm_compute. reflexivity. Qed.




(** C6 (code_bug): when the transport succeeds but the body is not
    well-formed XML, [ET.fromstring] raises [ParseError], which the
    [except requests.RequestException] clause does not catch: the fetcher
    raises instead of returning [None]. *)
Theorem fetch_rss_feed_malformed_body_raises
  (http_get : string -> http_response) (fromstring : string -> option elem)
  (url body : string)
  (Hget : http_get (url ++ "/feed") = HttpOk body)
  (Hparse : fromstring body = None) :
  fetch_rss_feed http_get fromstring url = ([HttpGet (url ++ "/feed")], Raise ParseError).
Proof. unfold fetch_rss_feed. now rewrite Hget, Hparse. Qed.

(** A parser that accepts only bodies starting with ['<'], used to
    exercise the theorem above on the body [not xml]. *)
Definition fromstring_lt (body : string) : option elem :=
  match body with
  | String c _ => if Ascii.eqb c "<"%char then Some (Elem "rss" [] None []) else None
  | EmptyString => None
  end.

Lemma fetch_rss_feed_malformed_body_raises_witness :
  fetch_rss_feed (fun _ => HttpOk "not xml") fromstring_lt "http://www.loyalbooks.com/book/emma"
  = ([HttpGet "http://www.loyalbooks.com/book/emma/feed"], Raise ParseError).
Proof.
  apply (fetch_rss_feed_malformed_body_raises (fun _ => HttpOk "not xml") fromstring_lt
           "http://www.loyalbooks.com/book/emma" "not xml"); reflexivity.
Defined.

(** ** Claims on the selection branch of the controller *)

Definition linkless_book : book :=
  {| title := "Emma"; author := "Unknown Author"; link := None; cover_image := None |}.

(** C7 (as amended): selecting a valid index whose book has no detail link
    does nothing: no request, no job and no message; the prompt loop is left
    and the same page is fetched and displayed again. *)
Theorem handle_digit_choice_no_link
  (http_get : string -> http_response) (fromstring : string -> option elem)
  (books : list book) (choice : string) (b : book)
  (Hdigit : isdigit choice = true)
  (Hpos : (1 <= dec_value choice)%Z)
  (Hnth : nth_error books (Z.to_nat (dec_value choice - 1)) = Some b)
  (Hlink : link b = None) :
  handle_digit_choice http_get fromstring books choice = ([], Ret Refetch).
Proof.
  unfold handle_digit_choice.
  assert (Hlt : (Z.to_nat (dec_value choice - 1) < List.length books)%nat)
    by (apply nth_error_Some; congruence).
  assert (Hin : ((1 <=? dec_value choice) && (dec_value choice <=? Z.of_nat (List.length books)))%Z = true).
  { apply andb_true_intro; split; apply Z.leb_le; lia. }
  rewrite Hin, Hnth. unfold select_book. now rewrite Hlink.
Qed.

Lemma handle_digit_choice_no_link_witness :
  handle_digit_choice (fun _ => HttpFailure) (fun _ => None)
    [linkless_book; linkless_book] "2" = ([], Ret Refetch).
Proof.
  apply (handle_digit_choice_no_link (fun _ => HttpFailure) (fun _ => None)
           [linkless_book; linkless_book] "2" linkless_book);
    try reflexivity; vm_compute; discriminate.
Defined.

(** C7 counterexample: choosing "1" in a one-book listing whose book has no
    link prints nothing, so the condition is not surfaced as a message. *)
Lemma handle_digit_choice_no_link_silent :
  ~ (exists msg, In (Print msg)
       (fst (handle_digit_choice (fun _ => HttpFailure) (fun _ => None) [linkless_book] "1"))).
Proof. vm_compute. intros [msg []]. Qed.

(** ** The catalog parser: the loop of [fetch_books] (lines 36-63) *)

(** BeautifulSoup nodes: tags and text strings. *)
Inductive node : Type :=
  | Tag (name : string) (attrs : list (string * string)) (children : list node)
  | Text (s : string).

Definition node_children (n : node) : list node :=
  match n with Tag _ _ ch => ch | Text _ => [] end.

Definition get_attr (key : string) (n : node) : option string :=
  match n with
  | Tag _ a _ =>
      match find (fun kv => String.eqb (fst kv) key) a with
      | Some (_, v) => Some v
      | None => None
      end
  | Text _ => None
  end.

(** [tag.text]: all descendant strings concatenated. *)
Fixpoint node_text (n : node) : string :=
  match n with
  | Text s => s
  | Tag _ _ ch =>
      (fix go (l : list node) : string :=
         match l with
         | [] => EmptyString
         | x :: r => node_text x ++ go r
         end) ch
  end.

(** The first tag satisfying [p] among the descendants of [n], in document
    order, with the siblings that follow it: [n.find(...)]. *)
Fixpoint find_in (p : node -> bool) (n : node) : option (node * list node) :=
  match n with
  | Text _ => None
  | Tag _ _ ch =>
      (fix go (l : list node) : option (node * list node) :=
         match l with
         | [] => None
         | x :: rest =>
             match x with
             | Text _ => go rest
             | Tag _ _ _ =>
                 if p x then Some (x, rest)
                 else match find_in p x with
                      | Some r => Some r
                      | None => go rest
                      end
             end
         end) ch
  end.

Definition is_tag (name : string) (n : node) : bool :=
  match n with Tag m _ _ => String.eqb m name | Text _ => false end.

(** [find('a', href=True)] *)
Definition is_link_tag (n : node) : bool :=
  is_tag "a" n && match get_attr "href" n with Some _ => true | None => false end.

Definition SITE : string := "http://www.loyalbooks.com".

Section Catalog.

(** The siblings [find_next_sibling()] (no arguments) can return. In
    BeautifulSoup 4 this call matches tags only and skips text strings; the
    development keeps the filter abstract so the results below hold for
    either reading. *)
Variable next_sibling_candidate : node -> bool.

(** Lines 46-52: the author loop over the siblings following the title. *)
Fixpoint author_from (sibs : list node) : string :=
  match sibs with
  | [] => "Unknown Author"
  | x :: rest =>
      if next_sibling_candidate x then
        match x with
        | Text s => if String.eqb (Py.strip s) EmptyString then author_from rest else Py.strip s
        | Tag _ _ _ => author_from rest
        end
      else author_from rest
  end.

(** Lines 38-62 for one entry: [Ret None] is [continue]. Indexing the
    [img] tag with ["src"] raises [KeyError] when the attribute is absent. *)
Definition process_entry (entry : node) : pyres (option book) :=
  let lnk := match find_in is_link_tag entry with
             | Some (a, _) => option_map (fun h => SITE ++ h) (get_attr "href" a)
             | None => None
             end in
  match find_in (is_tag "b") entry with
  | None => Ret None
  | Some (b, sibs) =>
      let bk := fun cover => {| title := Py.strip (node_text b);
                               author := author_from sibs;
                               link := lnk; cover_image := cover |} in
      match find_in (is_tag "img") entry with
      | None => Ret (Some (bk None))
      | Some (img, _) =>
          match get_attr "src" img with
          | Some src => Ret (Some (bk (Some (SITE ++ src))))
          | None => Raise KeyError
          end
      end
  end.

(** The loop over [soup.find_all('td', class_='layout2-blue')]; an
    exception leaves [fetch_books] (only [RequestException] is caught). *)
Fixpoint books_of_entries (entries : list node) : pyres (list book) :=
  match entries with
  | [] => Ret []
  | e :: r =>
      match process_entry e with
      | Raise x => Raise x
      | Ret ob =>
          match books_of_entries r with
          | Raise x => Raise x
          | Ret bs => Ret (match ob with Some b => b :: bs | None => bs end)
          end
      end
  end.

End Catalog.

(** BeautifulSoup's own filter for [find_next_sibling()]: tags only. *)
Definition bs4_tag_sibling (n : node) : bool :=
  match n with Tag _ _ _ => true | Text _ => false end.

Definition td (children : list node) : node :=
  Tag "td" [("class", "layout2-blue")] children.

Example books_of_entries_ex :
  books_of_entries bs4_tag_sibling
    [td [Tag "a" [("href", "/book/emma")] [Tag "img" [("src", "/image/emma.jpg")] []];
         Tag "b" [] [Text "Emma "]; Tag "br" [] []; Text "Jane Austen"];
     td [Text "advert"]] =
  Ret [{| title := "Emma"; author := "Unknown Author";
          link := Some "http://www.loyalbooks.com/book/emma";
          cover_image := Some "http://www.loyalbooks.com/image/emma.jpg" |}].
Proof. vm_compute. reflexivity. Qed.

(** ** Claims on the catalog parser *)

Definition has_title_tag (entry : node) : bool :=
  match find_in (is_tag "b") entry with Some _ => true | None => false end.

Lemma author_from_no_text cand sibs :
  (forall s, In (Text s) sibs -> Py.strip s = EmptyString) ->
  author_from cand sibs = "Unknown Author".
Proof.
  induction sibs as [|x sibs IH]; intros H; simpl; [reflexivity|].
  assert (IH' : author_from cand sibs = "Unknown Author")
    by (apply IH; intros s Hs; apply H; now right).
  destruct (cand x); [|exact IH'].
  destruct x as [n a ch|s]; [exact IH'|].
  rewrite (H s (or_introl eq_refl)). exact IH'.
Qed.

Lemma process_entry_title cand e ob :
  process_entry cand e = Ret ob -> (ob <> None <-> has_title_tag e = true).
Proof.
  unfold process_entry, has_title_tag.
  destruct (find_in (is_tag "b") e) as [[b sibs]|].
  - destruct (find_in (is_tag "img") e) as [[img r]|].
    + destruct (get_attr "src" img); intros H; inversion H; split; congruence.
    + intros H; inversion H; split; congruence.
  - intros H; inversion H; split; congruence.
Qed.

(** When the parser returns a listing, its length is the number of entries
    that have a bold title node: each entry without one is dropped. *)
Lemma books_of_entries_count cand entries bs :
  books_of_entries cand entries = Ret bs ->
  List.length bs = List.length (filter has_title_tag entries).
Proof.
  revert bs; induction entries as [|e entries IH]; intros bs H; simpl in H.
  - inversion H; reflexivity.
  - destruct (process_entry cand e) as [ob|x] eqn:He; [|discriminate].
    destruct (books_of_entries cand entries) as [bs'|x]; [|discriminate].
    inversion H; subst. apply process_entry_title in He. simpl.
    specialize (IH bs' eq_refl).
    destruct ob as [b|]; destruct (has_title_tag e); simpl.
    + now rewrite IH.
    + exfalso. assert (Hf : false = true) by (apply He; discriminate). discriminate.
    + exfalso. assert (Hf : @None book <> None) by (apply He; reflexivity). now apply Hf.
    + exact IH.
Qed.

(** A listed entry whose title node has no non-empty text sibling after it
    gets the author [Unknown Author]. *)
Lemma process_entry_unknown_author cand e bk b sibs :
  process_entry cand e = Ret (Some bk) ->
  find_in (is_tag "b") e = Some (b, sibs) ->
  (forall s, In (Text s) sibs -> Py.strip s = EmptyString) ->
  author bk = "Unknown Author".
Proof.
  intros H Hb Hs. unfold process_entry in H. rewrite Hb in H.
  destruct (find_in (is_tag "img") e) as [[img r]|].
  - destruct (get_attr "src" img); inversion H; subst; simpl;
      now apply author_from_no_text.
  - inversion H; subst; simpl. now apply author_from_no_text.
Qed.

(** C8 (code_bug): an entry with a bold title and an [img] tag without a
    [src] attribute makes [entry.find("img")["src"]] raise [KeyError],
    which [fetch_books] does not catch: the whole page fails instead of
    yielding a listing, whatever sibling filter is used. *)
Theorem books_of_entries_img_without_src (cand : node -> bool) :
  books_of_entries cand
    [td [Tag "b" [] [Text "Emma"]; Text "Jane Austen"; Tag "img" [("alt", "cover")] []];
     td [Text "advert"]]
  = Raise KeyError.
Proof. reflexivity. Qed.

(** * The rest of [app.py]: listing, display and the prompt loop of [main] *)

(** ** [str(n)] for integers, as in f-strings *)

Fixpoint nat_str_go (fuel n : nat) (acc : string) : string :=
  match fuel with
  | O => acc
  | S f =>
      let acc' := String (ascii_of_nat (48 + n mod 10)) acc in
      if (n <? 10)%nat then acc' else nat_str_go f (n / 10) acc'
  end.

Definition str_of_nat (n : nat) : string := nat_str_go (S n) n EmptyString.

Definition str_of_Z (z : Z) : string :=
  if (z <? 0)%Z then "-" ++ str_of_nat (Z.to_nat (- z)) else str_of_nat (Z.to_nat z).

Definition BASE_URL : string := "http://www.loyalbooks.com/Top_100".

(** ** HTML search: [find_all], [class_=...] and [get_text] *)

(** The whitespace-separated words of a [class] attribute value. *)
Fixpoint words_go (s cur : string) : list string :=
  match s with
  | EmptyString => if String.eqb cur EmptyString then [] else [cur]
  | String c s' =>
      if Py.is_space c
      then (if String.eqb cur EmptyString then [] else [cur]) ++ words_go s' EmptyString
      else words_go s' (cur ++ String c EmptyString)
  end.

Definition words (s : string) : list string := words_go s EmptyString.

(** [class_=c]: one of the classes is [c], or the whole class list is. *)
Definition has_class (c : string) (n : node) : bool :=
  match get_attr "class" n with
  | Some v => existsb (String.eqb c) (words v) || String.eqb (concat " " (words v)) c
  | None => false
  end.

(** [n.find_all(...)]: all descendant tags satisfying [p], in document order. *)
Fixpoint find_all_in (p : node -> bool) (n : node) : list node :=
  match n with
  | Text _ => []
  | Tag _ _ ch =>
      (fix go (l : list node) : list node :=
         match l with
         | [] => []
         | x :: r =>
             match x with
             | Text _ => go r
             | Tag _ _ _ => ((if p x then [x] else []) ++ find_all_in p x ++ go r)%list
             end
         end) ch
  end.

(** The text strings below [n], in document order. *)
Fixpoint all_strings (n : node) : list string :=
  match n with
  | Text s => [s]
  | Tag _ _ ch =>
      (fix go (l : list node) : list string :=
         match l with
         | [] => []
         | x :: r => (all_strings x ++ go r)%list
         end) ch
  end.

Definition is_book_entry (n : node) : bool := is_tag "td" n && has_class "layout2-blue" n.

(** [soup.find('div', class_='result-pages')], as read by
    [get_pagination_info]. *)
Definition marker_of (soup : node) : markup :=
  match find_in (fun n => is_tag "div" n && has_class "result-pages" n) soup with
  | Some (d, _) => Some (all_strings d)
  | None => None
  end.

(** ** [display_books] (lines 92-97) *)

Fixpoint display_lines (idx : nat) (books : list book) : list effect :=
  match books with
  | [] => []
  | b :: r => Print (str_of_nat idx ++ ". " ++ title b ++ " by " ++ author b)
              :: display_lines (S idx) r
  end.

Definition display_books (books : list book) : list effect :=
  (Print "Available books:" :: display_lines 1 books ++ [Print ""])%list.

Section Main.

Variable http_get : string -> http_response.
(** The HTML parser [BeautifulSoup(..., 'html.parser')], the XML parser
    [ET.fromstring] and the sibling filter of [find_next_sibling()]. *)
Variable html_parse : string -> node.
Variable fromstring : string -> option elem.
Variable next_sibling_candidate : node -> bool.

(** ** [fetch_books] (lines 28-66) *)
Definition fetch_books (page : Z) : list effect * pyres (list book) :=
  let u := BASE_URL ++ "/" ++ str_of_Z page in
  match http_get u with
  | HttpFailure => ([HttpGet u; Print "Error fetching books: <RequestException>"], Ret [])
  | HttpOk body =>
      ([HttpGet u],
       books_of_entries next_sibling_candidate (find_all_in is_book_entry (html_parse body)))
  end.

(** Truthiness of [pagination_info.get(key)]: [None] and [0] are false. *)
Definition truthy (v : option (option Z)) : bool :=
  match get_opt v with Some z => negb (z =? 0)%Z | None => false end.

Definition NO_NEXT_MSG : string := "No next page available.".
Definition NO_PREV_MSG : string := "No previous page available.".
Definition INVALID_INPUT_MSG : string :=
  "Invalid input. Please enter a number, 'n' for next page, or 'p' for previous page.".

(** One iteration of the prompt loop (lines 169-199) on the raw input line:
    the effects, what the loop does next and the new value of [PAGE]. *)
Definition handle_choice (books : list book) (pinfo : pagination_info) (page : Z)
  (raw : string) : list effect * pyres (control * Z) :=
  let choice := Py.lower (Py.strip raw) in
  if isdigit choice then
    let '(tr, r) := handle_digit_choice http_get fromstring books choice in
    (tr, match r with Ret c => Ret (c, page) | Raise e => Raise e end)
  else if String.eqb choice "n" then
    if truthy (has_next pinfo) then ([], Ret (Refetch, page + 1)%Z)
    else ([Print NO_NEXT_MSG], Ret (Reprompt, page))
  else if String.eqb choice "p" then
    if truthy (has_previous pinfo) then ([], Ret (Refetch, page - 1)%Z)
    else ([Print NO_PREV_MSG], Ret (Reprompt, page))
  else ([Print INVALID_INPUT_MSG], Ret (Reprompt, page)).

End Main.

Definition NO_BOOKS_MSG : string :=
  "No books found or there was an error fetching the book list.".

(** Lines 152-166 of [main]: fetch the page [PAGE] (its failure is not
    caught), list its books with [fetch_books], which sends a second
    request ([http_listing]; the two requests may get different answers), stop on an empty listing ([Ret None] is the
    [return]), otherwise display them and the pagination line. *)
Definition main_page_step (http_page http_listing : string -> http_response)
  (html_parse : string -> node) (next_sibling_candidate : node -> bool) (page : Z)
  : list effect * pyres (option (list book * pagination_info)) :=
  let u := BASE_URL ++ "/" ++ str_of_Z page in
  match http_page u with
  | HttpFailure => ([HttpGet u], Raise RequestException)
  | HttpOk body =>
      let soup := html_parse body in
      let '(tr, r) := fetch_books http_listing html_parse next_sibling_candidate page in
      match r with
      | Raise e => ((HttpGet u :: tr)%list, Raise e)
      | Ret [] => ((HttpGet u :: tr ++ [Print NO_BOOKS_MSG])%list, Ret None)
      | Ret books =>
          let pinfo := get_pagination_info page (marker_of soup) in
          ((HttpGet u :: tr ++ display_books books
              ++ [Print ("Page " ++ str_of_Z (current_page pinfo) ++ " of "
                         ++ str_of_Z (total_pages pinfo))])%list,
           Ret (Some (books, pinfo)))
      end
  end.


Example str_of_Z_ex : map str_of_Z [0; 7; 10; 123; -45]%Z = ["0"; "7"; "10"; "123"; "-45"].
Proof. vm_compute. reflexivity. Qed.

Example words_ex : words " layout2-blue  wide" = ["layout2-blue"; "wide"].
Proof. vm_compute. reflexivity. Qed.

(** ** Printed numbers read back *)

Module NumFacts.

Lemma dec_value_acc_app s t a :
  dec_value_acc (s ++ t) a = dec_value_acc t (dec_value_acc s a).
Proof. revert a; induction s as [|c s IH]; intros a; simpl; auto. Qed.

Lemma all_digits_app s t : all_digits (s ++ t) = all_digits s && all_digits t.
Proof. induction s as [|c s IH]; simpl; [reflexivity|]. now rewrite IH, andb_assoc. Qed.

Lemma digit_char r :
  (r < 10)%nat ->
  Py.is_digit (ascii_of_nat (48 + r)) = true /\
  Py.digit_val (ascii_of_nat (48 + r)) = Z.of_nat r.
Proof.
  intros H.
  do 10 (destruct r as [|r]; [split; vm_compute; reflexivity|]). lia.
Qed.

Lemma nat_str_go_spec f n acc :
  (n < f)%nat ->
  exists s, nat_str_go f n acc = s ++ acc /\ s <> EmptyString /\
            all_digits s = true /\ dec_value s = Z.of_nat n.
Proof.
  revert n acc; induction f as [|f IH]; intros n acc Hn; [lia|].
  cbn [nat_str_go]. pose proof (Nat.mod_upper_bound n 10 ltac:(lia)) as Hm.
  destruct (digit_char (n mod 10) Hm) as [Hd Hv].
  destruct (Nat.ltb_spec n 10) as [Hlt|Hge].
  - exists (String (ascii_of_nat (48 + n mod 10)) EmptyString).
    split; [reflexivity|]. split; [discriminate|]. cbn [all_digits]. rewrite Hd.
    split; [reflexivity|].
    unfold dec_value; cbn [dec_value_acc]. rewrite Hv, Nat.mod_small by exact Hlt. lia.
  - destruct (IH (n / 10) (String (ascii_of_nat (48 + n mod 10)) acc)) as [s [Hs [Hne [Hds Hv']]]].
    { apply Nat.Div0.div_lt_upper_bound; lia. }
    exists (s ++ String (ascii_of_nat (48 + n mod 10)) EmptyString).
    split; [rewrite Hs, StrFacts.append_assoc; reflexivity|].
    split; [destruct s; [congruence | discriminate]|].
    split; [rewrite all_digits_app, Hds; cbn [all_digits]; now rewrite Hd|].
    unfold dec_value in *. rewrite dec_value_acc_app, Hv'. cbn [dec_value_acc]. rewrite Hv.
    pose proof (Nat.div_mod n 10 ltac:(lia)). lia.
Qed.

Lemma str_of_nat_spec n :
  str_of_nat n <> EmptyString /\ all_digits (str_of_nat n) = true /\
  dec_value (str_of_nat n) = Z.of_nat n.
Proof.
  destruct (nat_str_go_spec (S n) n EmptyString ltac:(lia)) as [s [Hs H]].
  unfold str_of_nat. rewrite Hs, StrFacts.append_nil_r. exact H.
Qed.

Lemma isdigit_str_of_nat n : isdigit (str_of_nat n) = true.
Proof.
  destruct (str_of_nat_spec n) as [Hne [Hd _]]. unfold isdigit.
  destruct (String.eqb_spec (str_of_nat n) EmptyString); [congruence|]. now rewrite Hd.
Qed.

Lemma lower_digits s : all_digits s = true -> Py.lower s = s.
Proof.
  induction s as [|c s IH]; simpl; intros H; [reflexivity|].
  apply andb_prop in H as [Hc Hs]. rewrite (IH Hs). f_equal.
  unfold Py.lower_char, Py.is_digit in *. apply andb_prop in Hc as [H1 H2].
  apply Nat.leb_le in H1, H2.
  destruct (Nat.leb_spec 65 (nat_of_ascii c)); [|reflexivity]. simpl.
  destruct (Nat.leb_spec (nat_of_ascii c) 90); [lia | reflexivity].
Qed.

End NumFacts.

(** * Further properties of [app.py] *)

Module Extra.

Lemma display_lines_nth idx books i b :
  nth_error books i = Some b ->
  In (Print (str_of_nat (idx + i) ++ ". " ++ title b ++ " by " ++ author b))
     (display_lines idx books).
Proof.
  revert idx i; induction books as [|x books IH]; intros idx i H;
    destruct i as [|i]; simpl in H; try discriminate.
  - inversion H; subst. simpl. left. now rewrite Nat.add_0_r.
  - simpl. right. rewrite <- Nat.add_succ_comm. now apply IH.
Qed.

(** The number [display_books] prints before the book at position [i] is
    [i + 1], and typing that number at the prompt selects that very book
    (its detail link is followed) and keeps [PAGE]. *)
Theorem displayed_number_selects_book
  (http_get : string -> http_response) (fromstring : string -> option elem)
  (books : list book) (pinfo : pagination_info) (page : Z) (i : nat) (b : book)
  (Hi : nth_error books i = Some b) :
  In (Print (str_of_nat (S i) ++ ". " ++ title b ++ " by " ++ author b)) (display_books books) /\
  handle_choice http_get fromstring books pinfo page (str_of_nat (S i)) =
  (fst (select_book http_get fromstring b),
   match snd (select_book http_get fromstring b) with
   | Ret c => Ret (c, page)
   | Raise e => Raise e
   end).
Proof.
  destruct (NumFacts.str_of_nat_spec (S i)) as [Hne [Hd Hv]].
  split.
  - unfold display_books. right. apply in_or_app. left.
    apply (display_lines_nth 1 books i b Hi).
  - unfold handle_choice.
    rewrite (StrFacts.strip_digits _ Hd), (NumFacts.lower_digits _ Hd),
      NumFacts.isdigit_str_of_nat.
    unfold handle_digit_choice. rewrite Hv.
    assert (Hlt : (i < List.length books)%nat) by (apply nth_error_Some; congruence).
    assert (Hin : ((1 <=? Z.of_nat (S i)) && (Z.of_nat (S i) <=? Z.of_nat (List.length books)))%Z = true).
    { apply andb_true_intro; split; apply Z.leb_le; lia. }
    rewrite Hin.
    replace (Z.to_nat (Z.of_nat (S i) - 1)) with i by lia.
    rewrite Hi. destruct (select_book http_get fromstring b) as [tr r]. reflexivity.
Qed.

Lemma displayed_number_selects_book_witness :
  nth_error [linkless_book;
             {| title := "Walden"; author := "Thoreau"; link := Some "http://b/walden";
                cover_image := None |}] 1
  = Some {| title := "Walden"; author := "Thoreau"; link := Some "http://b/walden";
            cover_image := None |} /\
  (In (Print (str_of_nat 2 ++ ". " ++ "Walden" ++ " by " ++ "Thoreau"))
      (display_books [linkless_book;
             {| title := "Walden"; author := "Thoreau"; link := Some "http://b/walden";
                cover_image := None |}]) /\
   handle_choice (fun _ => HttpFailure) (fun _ => None)
     [linkless_book;
      {| title := "Walden"; author := "Thoreau"; link := Some "http://b/walden";
         cover_image := None |}] (get_pagination_info 4 None) 4 (str_of_nat 2)
   = ([HttpGet "http://b/walden/feed"; Print "Error fetching RSS feed: <RequestException>";
       Print FAILED_FEED_MSG], Ret (Refetch, 4%Z))).
Proof.
  split; [reflexivity |].
  destruct (displayed_number_selects_book (fun _ => HttpFailure) (fun _ => None)
           [linkless_book;
            {| title := "Walden"; author := "Thoreau"; link := Some "http://b/walden";
               cover_image := None |}] (get_pagination_info 4 None) 4 1
           _ eq_refl) as [H1 H2].
  split; [exact H1 |]. rewrite H2. reflexivity.
Defined.

Lemma handle_choice_n hg fs books pinfo page :
  handle_choice hg fs books pinfo page "n" =
  if truthy (has_next pinfo) then ([], Ret (Refetch, page + 1)%Z)
  else ([Print NO_NEXT_MSG], Ret (Reprompt, page)).
Proof. reflexivity. Qed.

Lemma handle_choice_p hg fs books pinfo page :
  handle_choice hg fs books pinfo page "p" =
  if truthy (has_previous pinfo) then ([], Ret (Refetch, page - 1)%Z)
  else ([Print NO_PREV_MSG], Ret (Reprompt, page)).
Proof. reflexivity. Qed.

(** On a page with a pagination marker, the command [n] moves to
    [PAGE + 1] exactly when the parsed current page is below the total and
    is not -1 (then the next-page value is 0, which is falsy); otherwise it
    prints [No next page available.] and keeps [PAGE]. *)
Theorem next_command_with_marker
  (hg : string -> http_response) (fs : string -> option elem)
  (books : list book) (page : Z) (pieces : list string) :
  let pinfo := get_pagination_info page (Some pieces) in
  handle_choice hg fs books pinfo page "n" =
  if ((current_page pinfo <? total_pages pinfo) && negb (current_page pinfo =? -1))%Z
  then ([], Ret (Refetch, page + 1)%Z)
  else ([Print NO_NEXT_MSG], Ret (Reprompt, page)).
Proof.
  cbv zeta. rewrite handle_choice_n. unfold get_pagination_info.
  destruct (parse_marker (get_text_strip pieces) page page) as [c t]. simpl.
  unfold truthy, get_opt.
  destruct (Z.ltb_spec c t); simpl; [|reflexivity].
  destruct (Z.eqb_spec (c + 1) 0), (Z.eqb_spec c (-1)); simpl; (reflexivity || lia).
Qed.

(** On a page with a pagination marker, the command [p] moves to
    [PAGE - 1] exactly when the parsed current page is greater than 1,
    whatever [PAGE] is (so [PAGE] 1 can become 0); otherwise it prints
    [No previous page available.] and keeps [PAGE]. *)
Theorem previous_command_with_marker
  (hg : string -> http_response) (fs : string -> option elem)
  (books : list book) (page : Z) (pieces : list string) :
  let pinfo := get_pagination_info page (Some pieces) in
  handle_choice hg fs books pinfo page "p" =
  if (1 <? current_page pinfo)%Z
  then ([], Ret (Refetch, page - 1)%Z)
  else ([Print NO_PREV_MSG], Ret (Reprompt, page)).
Proof.
  cbv zeta. rewrite handle_choice_p. unfold get_pagination_info.
  destruct (parse_marker (get_text_strip pieces) page page) as [c t]. simpl.
  unfold truthy, get_opt.
  destruct (Z.ltb_spec 1 c); simpl; [|reflexivity].
  destruct (Z.eqb_spec (c - 1) 0); simpl; (reflexivity || lia).
Qed.

(** On a page without a pagination marker, neither [n] nor [p] ever
    changes [PAGE]: both print that the page is unavailable. *)
Theorem navigation_without_marker
  (hg : string -> http_response) (fs : string -> option elem)
  (books : list book) (page : Z) :
  handle_choice hg fs books (get_pagination_info page None) page "n" =
    ([Print NO_NEXT_MSG], Ret (Reprompt, page)) /\
  handle_choice hg fs books (get_pagination_info page None) page "p" =
    ([Print NO_PREV_MSG], Ret (Reprompt, page)).
Proof. split; reflexivity. Qed.

(** A number outside [1 .. len(books)] (after stripping and lowercasing)
    prints the range message, does nothing else and keeps [PAGE]. *)
Theorem number_out_of_range
  (hg : string -> http_response) (fs : string -> option elem)
  (books : list book) (pinfo : pagination_info) (page : Z) (raw : string)
  (Hdigit : isdigit (Py.lower (Py.strip raw)) = true)
  (Hout : (dec_value (Py.lower (Py.strip raw)) < 1 \/
           Z.of_nat (List.length books) < dec_value (Py.lower (Py.strip raw)))%Z) :
  handle_choice hg fs books pinfo page raw =
  ([Print "Invalid choice. Please enter a number between 1 and <len(books)>."],
   Ret (Reprompt, page)).
Proof.
  unfold handle_choice. rewrite Hdigit. unfold handle_digit_choice.
  assert (H : ((1 <=? dec_value (Py.lower (Py.strip raw))) &&
               (dec_value (Py.lower (Py.strip raw)) <=? Z.of_nat (List.length books)))%Z = false).
  { apply andb_false_iff. destruct Hout; [left | right]; apply Z.leb_gt; lia. }
  now rewrite H.
Qed.

Lemma number_out_of_range_witness :
  handle_choice (fun _ => HttpFailure) (fun _ => None) [linkless_book]
    (get_pagination_info 1 None) 1 " 0 " =
  ([Print "Invalid choice. Please enter a number between 1 and <len(books)>."], Ret (Reprompt, 1%Z)).
Proof.
  apply (number_out_of_range (fun _ => HttpFailure) (fun _ => None) [linkless_book]
           (get_pagination_info 1 None) 1 " 0 "); [reflexivity | left; vm_compute; reflexivity].
Defined.

End Extra.

Module Extra2.

(** When the marker text lacks ["Page"] or ["of"], nothing is parsed: the
    state is current = total = [PAGE], with no next page and a previous page
    [PAGE - 1] exactly when [PAGE > 1]. *)
Theorem pagination_without_keywords (page : Z) (pieces : list string)
  (Hkw : Py.contains "Page" (get_text_strip pieces) && Py.contains "of" (get_text_strip pieces)
         = false) :
  get_pagination_info page (Some pieces) =
  {| current_page := page; total_pages := page;
     has_previous := Some (if (1 <? page)%Z then Some (page - 1)%Z else None);
     has_next := Some None |}.
Proof.
  unfold get_pagination_info, parse_marker. rewrite Hkw. now rewrite Z.ltb_irrefl.
Qed.

Lemma pagination_without_keywords_witness :
  get_pagination_info 3 (Some ["1 2 3"]) =
  {| current_page := 3; total_pages := 3;
     has_previous := Some (Some 2%Z); has_next := Some None |}.
Proof. apply (pagination_without_keywords 3 ["1 2 3"]). reflexivity. Defined.

(** [download_book] raises [AttributeError] with no effect exactly when
    the feed's first title element has no text. Otherwise it attempts to
    create the book directory; when that fails it raises [OSError] with no
    further effect, and when it succeeds the function returns normally,
    whatever the [add_uris] calls do. *)
Theorem download_book_outcome (makedirs_ok : string -> bool)
  (add_uris_ok : option string -> string -> bool) (root : elem) :
  match find_desc "title" root with
  | Some t =>
      match elem_text t with
      | None => download_book_in makedirs_ok add_uris_ok root = ([], Raise AttributeError)
      | Some s =>
          let dir := path_join AUDIOBOOKS_DIR (clean_title (Py.strip s)) in
          if makedirs_ok dir then snd (download_book_in makedirs_ok add_uris_ok root) = Ret tt
          else download_book_in makedirs_ok add_uris_ok root = ([Makedirs dir], Raise OSError)
      end
  | None =>
      let dir := path_join AUDIOBOOKS_DIR (clean_title "unknown_title") in
      if makedirs_ok dir then snd (download_book_in makedirs_ok add_uris_ok root) = Ret tt
      else download_book_in makedirs_ok add_uris_ok root = ([Makedirs dir], Raise OSError)
  end.
Proof.
  unfold download_book_in, book_title_of.
  destruct (find_desc "title" root) as [t|]; [destruct (elem_text t) as [s|]|];
    cbv zeta; try reflexivity;
    match goal with |- context [makedirs_ok ?d] => destruct (makedirs_ok d) end;
    reflexivity.
Qed.



End Extra2.

Module Extra3.

Definition chars (s : string) : list ascii := list_ascii_of_string s.

Lemma in_filter_str p s c :
  In c (chars (SpecTitle.filter_str p s)) -> p c = true /\ In c (chars s).
Proof.
  induction s as [|d s IH]; simpl; [intros []|].
  destruct (p d) eqn:Hp; simpl.
  - intros [<-|H]; [split; [exact Hp | now left]|].
    destruct (IH H); split; [assumption | now right].
  - intros H. destruct (IH H); split; [assumption | now right].
Qed.

Lemma in_map_str f s c :
  In c (chars (SpecTitle.map_str f s)) -> exists d, In d (chars s) /\ c = f d.
Proof.
  induction s as [|d s IH]; simpl; [intros []|].
  intros [<-|H]; [exists d; split; [now left | reflexivity]|].
  destruct (IH H) as [d' [Hd' ->]]. exists d'. split; [now right | reflexivity].
Qed.

Definition is_upper (c : ascii) : Prop := (65 <= nat_of_ascii c <= 90)%nat.

Lemma lower_char_not_upper c : ~ is_upper (Py.lower_char c).
Proof.
  unfold is_upper, Py.lower_char.
  destruct (Nat.leb_spec 65 (nat_of_ascii c)); simpl; [|lia].
  destruct (Nat.leb_spec (nat_of_ascii c) 90); simpl; [|lia].
  pose proof (Ascii.nat_ascii_bounded c).
  rewrite Ascii.nat_ascii_embedding by lia. lia.
Qed.

Lemma in_lower s c : In c (chars (Py.lower s)) -> ~ is_upper c.
Proof.
  induction s as [|d s IH]; simpl; [intros []|].
  intros [<-|H]; [apply lower_char_not_upper | now apply IH].
Qed.

(** The directory name derived from a feed title never contains a space,
    an apostrophe or an upper-case ASCII letter. *)
Theorem clean_title_chars (t : string) (c : ascii) :
  In c (chars (clean_title t)) ->
  c <> " "%char /\ c <> "'"%char /\ ~ is_upper c.
Proof.
  unfold clean_title, Py.replace.
  rewrite TitleFacts.replace_char, TitleFacts.delete_char.
  intros H. apply in_filter_str in H as [Hp H].
  apply in_map_str in H. destruct H as [d [Hd Hc]]. subst c.
  apply in_lower in Hd. cbv beta in *.
  destruct (Ascii.eqb_spec d " "%char) as [Hsp|Hne].
  - subst d. cbv. split; [discriminate|]. split; [discriminate|]. lia.
  - split; [exact Hne|]. split; [|exact Hd].
    intros Hq. subst d. simpl in Hp. discriminate.
Qed.

Lemma clean_title_chars_witness :
  In "-"%char (chars (clean_title "Alice's Adventures by Lewis Carroll")) /\
  ("-"%char <> " "%char /\ "-"%char <> "'"%char /\ ~ is_upper "-"%char).
Proof.
  assert (Hin : In "-"%char (chars (clean_title "Alice's Adventures by Lewis Carroll")))
    by (vm_compute; tauto).
  split; [exact Hin|].
  apply (clean_title_chars "Alice's Adventures by Lewis Carroll"). exact Hin.
Defined.

(** A feed title whose directory name starts with ['/'] makes
    [os.path.join] drop the [audiobooks] root: the directory created is the
    absolute path itself. *)
Theorem download_dir_absolute (root : elem) (t : string)
  (Ht : book_title_of root = Ret t)
  (Habs : Py.is_prefix "/" (clean_title t) = true) :
  hd_error (fst (download_book root)) = Some (Makedirs (clean_title t)).
Proof.
  unfold download_book, download_book_in. rewrite Ht. simpl. unfold path_join.
  destruct (clean_title t) as [|c r]; [discriminate|].
  cbn [Py.is_prefix] in Habs. rewrite andb_true_r in Habs.
  apply Ascii.eqb_eq in Habs. subst c. reflexivity.
Qed.

Lemma download_dir_absolute_witness :
  hd_error (fst (download_book (mk_feed (Some "/tmp/Sherlock by Doyle") [])))
  = Some (Makedirs "/tmp/sherlock").
Proof.
  apply (download_dir_absolute (mk_feed (Some "/tmp/Sherlock by Doyle") [])
           "/tmp/Sherlock by Doyle"); reflexivity.
Defined.

(** An entry that makes the catalog loop raise: it has a bold title and
    its first [img] tag has no [src]. *)
Definition entry_fails (e : node) : bool :=
  match find_in (is_tag "b") e with
  | None => false
  | Some _ =>
      match find_in (is_tag "img") e with
      | Some (img, _) => match get_attr "src" img with None => true | Some _ => false end
      | None => false
      end
  end.

Lemma process_entry_fails cand e :
  (entry_fails e = true -> process_entry cand e = Raise KeyError) /\
  (entry_fails e = false -> exists ob, process_entry cand e = Ret ob).
Proof.
  unfold entry_fails, process_entry.
  destruct (find_in (is_tag "b") e) as [[b sibs]|]; [|split; [discriminate | eauto]].
  destruct (find_in (is_tag "img") e) as [[img r]|]; [|split; [discriminate | eauto]].
  destruct (get_attr "src" img); split; (discriminate || eauto).
Qed.

(** The catalog loop raises [KeyError] exactly when some entry has a bold
    title and an [img] without [src]; otherwise it returns one listing per
    entry that has a bold title. *)
Theorem books_of_entries_outcome (cand : node -> bool) (entries : list node) :
  if existsb entry_fails entries
  then books_of_entries cand entries = Raise KeyError
  else exists bs, books_of_entries cand entries = Ret bs /\
                  List.length bs = List.length (filter has_title_tag entries).
Proof.
  induction entries as [|e entries IH]; simpl.
  - exists []. split; reflexivity.
  - destruct (process_entry_fails cand e) as [Hf Hok].
    destruct (entry_fails e) eqn:He; simpl.
    + now rewrite (Hf eq_refl).
    + destruct (Hok eq_refl) as [ob Hob]. rewrite Hob.
      destruct (existsb entry_fails entries).
      * now rewrite IH.
      * destruct IH as [bs [Hbs _]]. rewrite Hbs.
        eexists; split; [reflexivity|].
        apply (books_of_entries_count cand (e :: entries)). simpl. now rewrite Hob, Hbs.
Qed.

(** When the page request succeeds but the listing request of
    [fetch_books] fails, [main] prints the fetch error and
    [No books found ...] and ends. *)
Theorem main_listing_failure
  (http_page http_listing : string -> http_response) (html_parse : string -> node)
  (cand : node -> bool) (page : Z) (body : string)
  (Hpage : http_page (BASE_URL ++ "/" ++ str_of_Z page) = HttpOk body)
  (Hlist : http_listing (BASE_URL ++ "/" ++ str_of_Z page) = HttpFailure) :
  main_page_step http_page http_listing html_parse cand page =
  ([HttpGet (BASE_URL ++ "/" ++ str_of_Z page); HttpGet (BASE_URL ++ "/" ++ str_of_Z page);
    Print "Error fetching books: <RequestException>"; Print NO_BOOKS_MSG], Ret None).
Proof.
  unfold main_page_step. rewrite Hpage. unfold fetch_books. now rewrite Hlist.
Qed.

Lemma main_listing_failure_witness :
  main_page_step (fun _ => HttpOk "<html></html>") (fun _ => HttpFailure)
    (fun _ => Tag "html" [] []) bs4_tag_sibling 1 =
  ([HttpGet "http://www.loyalbooks.com/Top_100/1"; HttpGet "http://www.loyalbooks.com/Top_100/1";
    Print "Error fetching books: <RequestException>"; Print NO_BOOKS_MSG], Ret None).
Proof.
  apply (main_listing_failure (fun _ => HttpOk "<html></html>") (fun _ => HttpFailure)
           (fun _ => Tag "html" [] []) bs4_tag_sibling 1 "<html></html>"); reflexivity.
Defined.

(** A feed that parses to a root element without children is falsy in
    [if rss_feed:]: no download is attempted, the failure message is
    printed and the page is shown again. *)
Theorem select_book_childless_feed
  (hg : string -> http_response) (fs : string -> option elem)
  (b : book) (l body : string) (root : elem)
  (Hlink : link b = Some l) (Hne : l <> EmptyString)
  (Hget : hg (l ++ "/feed") = HttpOk body) (Hparse : fs body = Some root)
  (Hch : elem_children root = []) :
  select_book hg fs b = ([HttpGet (l ++ "/feed"); Print FAILED_FEED_MSG], Ret Refetch).
Proof.
  unfold select_book. rewrite Hlink.
  destruct (String.eqb_spec l EmptyString); [congruence|].
  unfold fetch_rss_feed. rewrite Hget, Hparse.
  unfold elem_truthy. now rewrite Hch.
Qed.

Lemma select_book_childless_feed_witness :
  select_book (fun _ => HttpOk "<rss/>") (fun _ => Some (Elem "rss" [] None []))
    {| title := "Emma"; author := "Jane Austen"; link := Some "http://b/emma";
       cover_image := None |}
  = ([HttpGet "http://b/emma/feed"; Print FAILED_FEED_MSG], Ret Refetch).
Proof.
  apply (select_book_childless_feed (fun _ => HttpOk "<rss/>") (fun _ => Some (Elem "rss" [] None []))
           {| title := "Emma"; author := "Jane Austen"; link := Some "http://b/emma";
              cover_image := None |} "http://b/emma" "<rss/>" (Elem "rss" [] None []));
    (reflexivity || discriminate).
Defined.

(** When the feed request fails, the selection prints the fetch error and
    the failure message, downloads nothing and shows the page again. *)
Theorem select_book_feed_transport_failure
  (hg : string -> http_response) (fs : string -> option elem) (b : book) (l : string)
  (Hlink : link b = Some l) (Hne : l <> EmptyString)
  (Hget : hg (l ++ "/feed") = HttpFailure) :
  select_book hg fs b =
  ([HttpGet (l ++ "/feed"); Print "Error fetching RSS feed: <RequestException>";
    Print FAILED_FEED_MSG], Ret Refetch).
Proof.
  unfold select_book. rewrite Hlink.
  destruct (String.eqb_spec l EmptyString); [congruence|].
  unfold fetch_rss_feed. now rewrite Hget.
Qed.

Lemma select_book_feed_transport_failure_witness :
  select_book (fun _ => HttpFailure) (fun _ => None)
    {| title := "Emma"; author := "Jane Austen"; link := Some "http://b/emma";
       cover_image := None |}
  = ([HttpGet "http://b/emma/feed"; Print "Error fetching RSS feed: <RequestException>";
      Print FAILED_FEED_MSG], Ret Refetch).
Proof.
  apply (select_book_feed_transport_failure (fun _ => HttpFailure) (fun _ => None)
           {| title := "Emma"; author := "Jane Austen"; link := Some "http://b/emma";
              cover_image := None |} "http://b/emma"); (reflexivity || discriminate).
Defined.

End Extra3.
